(** * summarize.py: a shallow embedding and its verified properties

    The script reads weekly CSV metric files, computes per-column
    statistics with pandas, renders one plot per numeric column, asks an
    external text generator (the [ollama] process) for a summary of each
    week and for a comparison of each pair of consecutive weeks.

    Modelling choices, fixed once for the whole development:
    - a Python [str] is a list of Unicode code points ([list N]);
      the byte streams of the external process are modelled by the text
      they decode to;
    - a float64 is a real number, and the float NaN is [None]
      ([fval := option R]); rounding, overflow and infinities are outside
      the model;
    - a pandas DataFrame is a schema (column label and dtype) with a list
      of rows of cells; the dtype belongs to the column, as in pandas, and
      survives the removal of rows;
    - the file system is a finite map from paths to contents, the console a
      list of printed lines; effects are threaded through a state and
      exception monad;
    - what the script imports and the repository does not contain (the CSV
      parser, the figure renderer, the [.2f] float formatter, the Unicode
      alphanumeric table, the external process) is a Section variable. *)

From Stdlib Require Import Reals Lra Lia String Ascii NArith ZArith List DecimalString.
From stdpp Require Import gmap list sorting.

(** ** Text *)

Abbreviation str := (list N).

(** A literal: the code points of an ASCII string. *)
Definition lit (s : string) : str :=
  map N_of_ascii (list_ascii_of_string s).

(** [str(n)] for a non-negative integer, as the f-strings render it. *)
Definition str_of_nat (n : nat) : str :=
  lit (NilEmpty.string_of_uint (Nat.to_uint n)).


(** [str.isspace] on one code point: the characters of Unicode general
    category Zs or bidirectional class WS, B or S. *)
Definition is_space (c : N) : bool :=
  (((9 <=? c) && (c <=? 13)) || ((28 <=? c) && (c <=? 32))
   || (c =? 133) || (c =? 160) || (c =? 5760)
   || ((8192 <=? c) && (c <=? 8202))
   || (c =? 8232) || (c =? 8233) || (c =? 8239) || (c =? 8287)
   || (c =? 12288))%N.

Fixpoint lstrip (s : str) : str :=
  match s with
  | [] => []
  | c :: s' => if is_space c then lstrip s' else s
  end.

Definition rstrip (s : str) : str := rev (lstrip (rev s)).

(** [s.strip()] *)
Definition strip (s : str) : str := rstrip (lstrip s).

(** ** Paths ([os.path] on POSIX) *)

Definition slash : N := 47%N.
Definition dot : N := 46%N.
Definition underscore : N := 95%N.
Definition dash : N := 45%N.

(** the part after the last slash *)
Fixpoint basename (p : str) : str :=
  match p with
  | [] => []
  | c :: p' => if (c =? slash)%N || existsb (N.eqb slash) p' then basename p' else p
  end.

(** [os.path.splitext(p)[0]] for a [p] without a slash: the extension
    starts at the last dot, unless only dots precede it. *)
Fixpoint splitext_root_aux (seen_non_dot : bool) (p : str) : str :=
  match p with
  | [] => []
  | c :: p' =>
      if (c =? dot)%N && seen_non_dot && negb (existsb (N.eqb dot) p') then []
      else c :: splitext_root_aux (seen_non_dot || negb (c =? dot)%N) p'
  end.

Definition splitext_root (p : str) : str := splitext_root_aux false p.

(** [os.path.join(a, b)] *)
Definition path_join (a b : str) : str :=
  match b with
  | c :: _ => if (c =? slash)%N then b
              else match last a with
                   | None => b
                   | Some d => if (d =? slash)%N then a ++ b else a ++ slash :: b
                   end
  | [] => match last a with
          | None => []
          | Some d => if (d =? slash)%N then a else a ++ [slash]
          end
  end.

(** ** Numbers and series (pandas)

    pandas is a dependency of the script; its reductions are written out
    here after their documented behaviour: missing values are skipped, a
    reduction without values is NaN, and [std] divides by the count minus
    one. *)

(** a float64 value; [None] is NaN *)
Abbreviation fval := (option R).


Inductive dtype := int64 | float64 | object.

(** one cell of a frame; [NaN] is the missing value of every dtype *)
Inductive cell := NaN | Num (x : R) | Str (s : str).

Record Series := { s_dtype : dtype; s_values : list cell }.

Definition numeric (d : dtype) : bool :=
  match d with
  | object => false
  | int64 | float64 => true
  end.

(** [pd.api.types.is_numeric_dtype] *)
Definition is_numeric_dtype (s : Series) : bool := numeric (s_dtype s).

(** the numbers a reduction sees: pandas reductions skip NaN *)
Definition numeric_values (s : Series) : list R :=
  omap (fun c => match c with Num x => Some x | _ => None end) (s_values s).

Definition Rsum (xs : list R) : R := fold_right Rplus 0%R xs.

#[global] Instance Rle_decision (x y : R) : Decision (x <= y)%R := Rle_dec x y.

(** [Series.mean()] *)
Definition series_mean (s : Series) : fval :=
  let xs := numeric_values s in
  match xs with
  | [] => None
  | _ => Some (Rsum xs / INR (length xs))%R
  end.

(** [Series.median()]: the middle of the sorted values, the mean of the
    two middle ones for an even count *)
Definition series_median (s : Series) : fval :=
  let ys := merge_sort Rle (numeric_values s) in
  let n := length ys in
  if Nat.eqb n 0 then None
  else if Nat.odd n then ys !! (n / 2)%nat
  else match ys !! (n / 2 - 1)%nat, ys !! (n / 2)%nat with
       | Some a, Some b => Some ((a + b) / 2)%R
       | _, _ => None
       end.

(** [Series.std()]: one delta degree of freedom, NaN when fewer than two
    values remain *)
Definition series_std (s : Series) : fval :=
  let xs := numeric_values s in
  let n := length xs in
  if (n <=? 1)%nat then None
  else
    let avg := (Rsum xs / INR n)%R in
    Some (sqrt (Rsum (map (fun x => (avg - x) * (avg - x))%R xs) / INR (n - 1))).

(** [Series.min()] *)
Definition series_min (s : Series) : fval :=
  match numeric_values s with
  | [] => None
  | x :: xs => Some (fold_left Rmin xs x)
  end.

(** [Series.max()] *)
Definition series_max (s : Series) : fval :=
  match numeric_values s with
  | [] => None
  | x :: xs => Some (fold_left Rmax xs x)
  end.

(** ** Data frames *)

(** Column labels are unique in a frame that [pd.read_csv] builds (repeated
    header names are renamed), so a loop [for col in df.columns] that reads
    [df[col]] visits the columns by position: [items]. *)
Record DataFrame := { schema : list (str * dtype); rows : list (list cell) }.

Definition columns (df : DataFrame) : list str := map fst (schema df).

Definition column_values (df : DataFrame) (i : nat) : list cell :=
  map (fun r => nth i r NaN) (rows df).

Fixpoint items_from (df : DataFrame) (i : nat) (sch : list (str * dtype))
  : list (str * Series) :=
  match sch with
  | [] => []
  | (col, d) :: sch' =>
      (col, {| s_dtype := d; s_values := column_values df i |})
        :: items_from df (S i) sch'
  end.

Definition items (df : DataFrame) : list (str * Series) :=
  items_from df 0 (schema df).

Definition notna (c : cell) : bool :=
  match c with NaN => false | _ => true end.

(** [df.dropna()]: keep the rows without a missing value *)
Definition dropna (df : DataFrame) : DataFrame :=
  {| schema := schema df; rows := filter (fun r => forallb notna r = true) (rows df) |}.

(** [df.head(n)] *)
Definition head (n : nat) (df : DataFrame) : DataFrame :=
  {| schema := schema df; rows := take n (rows df) |}.


(** ** Dictionaries: insertion-ordered, as Python's [dict] *)

Definition dict_set {V} (d : list (str * V)) (k : str) (v : V) : list (str * V) :=
  if existsb (fun kv => bool_decide (kv.1 = k)) d
  then map (fun kv => if bool_decide (kv.1 = k) then (k, v) else kv) d
  else d ++ [(k, v)].


(** ** [calculate_statistics] *)

Definition column_stats (s : Series) : list (str * fval) :=
  [ (lit "mean", series_mean s);
    (lit "median", series_median s);
    (lit "std", series_std s);
    (lit "min", series_min s);
    (lit "max", series_max s) ].

Definition calculate_statistics (df : DataFrame) : list (str * list (str * fval)) :=
  fold_left
    (fun stats '(col, s) =>
       if is_numeric_dtype s then dict_set stats col (column_stats s) else stats)
    (items df) [].

(** *** Vocabulary of the properties *)

(** the columns that pass the dtype test of the two loops *)
Definition numeric_items (df : DataFrame) : list (str * Series) :=
  filter (fun cs => is_numeric_dtype cs.2 = true) (items df).

(** a cell a column of dtype [d] can hold *)
Definition cell_fits (d : dtype) (c : cell) : bool :=
  match c, d with
  | NaN, _ => true
  | Num _, (int64 | float64) => true
  | Str _, object => true
  | _, _ => false
  end.

Fixpoint row_fits (sch : list (str * dtype)) (r : list cell) : bool :=
  match sch, r with
  | [], [] => true
  | (_, d) :: sch', c :: r' => cell_fits d c && row_fits sch' r'
  | _, _ => false
  end.

(** a frame as [pd.read_csv] builds it: distinct labels, and rows of the
    width and the dtypes of the schema *)
Definition well_formed (df : DataFrame) : bool :=
  bool_decide (NoDup (columns df)) && forallb (row_fits (schema df)) (rows df).

(** no cell is missing, as after [dropna] *)
Definition no_missing (df : DataFrame) : bool :=
  forallb (forallb notna) (rows df).



(** the record of a column without values *)
Definition nan_stats : list (str * fval) :=
  [ (lit "mean", None); (lit "median", None); (lit "std", None);
    (lit "min", None); (lit "max", None) ].



(** ** The static description catalog *)


Definition nl : str := [10%N].

(** what [subprocess.run(..., capture_output=True)] returns *)
Record CompletedProcess := { returncode : Z; stdout : str; stderr : str }.

Inductive exn :=
| FileNotFoundError (path : str)
| ParserError (path : str)
| IndexError.

(** ** Sample inputs *)

Module Sample.



(** the frame of a file whose second column is empty on every row:
    pandas reads that column as float64, all NaN *)
Definition all_missing : DataFrame :=
  {| schema := [(lit "queueLength", int64); (lit "latencyRead", float64)];
     rows := [[Num 1; NaN]; [Num 2; NaN]] |}.

(** a numeric column and a text column, five rows *)
Definition mixed : DataFrame :=
  {| schema := [(lit "queueLength", int64); (lit "notes", object)];
     rows := [[Num 1; Str (lit "a")]; [Num 2; Str (lit "b")];
              [Num 3; Str (lit "c")]; [Num 4; Str (lit "d")];
              [Num 5; Str (lit "e")]] |}.


Definition unicode_alnum (c : N) : bool := false.
Definition format_2f (v : fval) : str := lit "0.00".
Definition parse_csv (content : str) : option DataFrame :=
  if bool_decide (content = lit "mixed") then Some mixed else None.

(** a process that fails on its second call and on no other; the world
    is the number of calls made *)
Definition ollama (w : nat) (prompt : str) : CompletedProcess * nat :=
  (if Nat.eqb w 1
   then {| returncode := 1; stdout := []; stderr := lit "model not found" |}
   else {| returncode := 0; stdout := lit " different
"; stderr := [] |},
   S w).

Definition week_files : list str :=
  [lit "summaries/week1_summary.txt"; lit "summaries/week2_summary.txt";
   lit "summaries/week3_summary.txt"; lit "summaries/week4_summary.txt"].

Definition week_texts : list str :=
  [lit "calm"; lit "busy"; lit "slow"; lit "calm again"].

Definition disk : gmap (list N) (list N) :=
  list_to_map (zip week_files week_texts ++ [(lit "week1.csv", lit "mixed")]).



End Sample.

Section Pipeline.

(** [str.isalnum] on the code points from 128 on (the Unicode table) *)
Variable unicode_alnum : N -> bool.
(** [f"{value:.2f}"] *)
Variable format_2f : fval -> str.
(** the pandas CSV parser on the content of a file; [None]: it raises *)
Variable parse_csv : str -> option DataFrame.
(** the bytes matplotlib saves for the line plot of a column *)
Variable render_line_plot : str -> Series -> str.
(** the world outside the script, and [ollama run mistral] in it: the
    prompt on its input stream, its completion record and the world
    afterwards *)
Variable World : Type.
Variable ollama : World -> str -> CompletedProcess * World.

(** *** [format_stats] *)

Definition format_stats (stats : list (str * list (str * fval))) : str :=
  fold_left
    (fun text '(col, metrics) =>
       fold_left
         (fun text '(stat, value) =>
            text ++ lit "  - " ++ stat ++ lit ": " ++ format_2f value ++ nl)
         metrics
         (text ++ lit "**" ++ col ++ lit "**:" ++ nl))
    stats [].

(** *** [generate_prompt] *)





(** *** [clean_filename] *)

(** the class [\w] of a [str] pattern: alphanumeric or underscore *)
Definition is_word (c : N) : bool :=
  (((48 <=? c) && (c <=? 57)) || ((65 <=? c) && (c <=? 90))
   || ((97 <=? c) && (c <=? 122)) || (c =? underscore)
   || ((128 <=? c) && unicode_alnum c))%N.

(** the characters the class [[^\w\-_.]] does not match *)
Definition safe_char (c : N) : bool :=
  is_word c || (c =? dash)%N || (c =? underscore)%N || (c =? dot)%N.

Definition clean_filename (text : str) : str :=
  map (fun c => if safe_char c then c else underscore) text.

(** *** State, exceptions and the primitive effects *)

Record State := {
  files : gmap (list N) (list N);  (** path to content *)
  dirs : gset (list N);            (** directories made *)
  console : list (list N);         (** the lines printed, oldest first *)
  calls : list (list N);           (** prompts passed to the process *)
  world : World
}.

Inductive outcome (A : Type) :=
| Ok (a : A) (st : State)
| Raise (e : exn) (st : State).
Arguments Ok {A}.
Arguments Raise {A}.

Definition M (A : Type) : Type := State -> outcome A.

#[local] Instance M_ret : MRet M := fun A a st => Ok a st.
#[local] Instance M_bind : MBind M := fun A B f m st =>
  match m st with
  | Ok a st' => f a st'
  | Raise e st' => Raise e st'
  end.

Definition raise {A} (e : exn) : M A := fun st => Raise e st.

(** [print(line)] *)
Definition print (line : str) : M unit := fun st =>
  Ok tt {| files := files st; dirs := dirs st;
           console := console st ++ [line];
           calls := calls st; world := world st |}.

(** [open(path, 'r').read()] *)
Definition read_text (path : str) : M str := fun st =>
  match files st !! path with
  | Some content => Ok content st
  | None => Raise (FileNotFoundError path) st
  end.

(** [open(path, 'w').write(content)]: the file is created or truncated.
    Writing never fails in the model. *)
Definition write_text (path content : str) : M unit := fun st =>
  Ok tt {| files := <[path := content]> (files st); dirs := dirs st;
           console := console st; calls := calls st; world := world st |}.



(** [subprocess.run(['ollama', 'run', 'mistral'], input=prompt,
    capture_output=True)] *)
Definition subprocess_run (prompt : str) : M CompletedProcess := fun st =>
  let '(result, w) := ollama (world st) prompt in
  Ok result {| files := files st; dirs := dirs st; console := console st;
               calls := calls st ++ [prompt]; world := w |}.

(** [pd.read_csv(path)] *)
Definition read_csv (path : str) : M DataFrame :=
  content ← read_text path;
  match parse_csv content with
  | Some df => mret df
  | None => raise (ParserError path)
  end.


(** *** [plot_metrics] *)

Definition plot_folder (csv_name : str) : str :=
  let base_name := splitext_root (basename csv_name) in
  path_join (lit "plots") base_name.

Definition plot_filename (csv_name col : str) : str :=
  let safe_col := clean_filename col in
  path_join (plot_folder csv_name) (safe_col ++ lit ".png").


(** *** [generate_summary] *)

Definition load_dataset (csv_file : str) : M DataFrame :=
  df ← read_csv csv_file;
  mret (head 100 (dropna df)).


(** *** [compare_summaries] *)

Definition comparison_prompt (i : nat) (summary1 summary2 : str) : str :=
  strip (lit "
You are a system performance analyst. Below are two weekly summaries of system metrics.

Compare Week " ++ str_of_nat (i + 1) ++ lit " and Week " ++ str_of_nat (i + 2) ++ lit ":
- Focus only on actual differences in trends or anomalies.
- Do not repeat similar parts.
- Be precise and analytical.

--- Week " ++ str_of_nat (i + 1) ++ lit " Summary ---
" ++ summary1 ++ lit "

--- Week " ++ str_of_nat (i + 2) ++ lit " Summary ---
" ++ summary2 ++ lit "
").

(** the block appended for a successful pair; 128269 is the magnifying
    glass that opens its title *)
Definition comparison_block (i : nat) (comparison_text : str) : str :=
  nl ++ [128269%N] ++ lit " Week " ++ str_of_nat (i + 1)
     ++ lit " vs Week " ++ str_of_nat (i + 2) ++ lit ":" ++ nl
     ++ comparison_text ++ nl ++ repeat dash 80 ++ nl.

Definition index (l : list str) (i : nat) : M str :=
  match l !! i with
  | Some x => mret x
  | None => raise IndexError
  end.

(** the loop [for i in range(len(summary_files) - 1)], on the indices that
    remain and the list [comparisons] so far *)
Fixpoint compare_loop (summary_files : list str) (indices : list nat)
    (comparisons : list str) : M (list str) :=
  match indices with
  | [] => mret comparisons
  | i :: rest =>
      path1 ← index summary_files i;
      text1 ← read_text path1;
      path2 ← index summary_files (i + 1);
      text2 ← read_text path2;
      let summary1 := strip text1 in
      let summary2 := strip text2 in
      let prompt := comparison_prompt i summary1 summary2 in
      result ← subprocess_run prompt;
      if bool_decide (returncode result ≠ 0%Z) then
        print (lit " Error comparing summaries for Week " ++ str_of_nat (i + 1)
                 ++ lit " and Week " ++ str_of_nat (i + 2)) ;;
        print (stderr result) ;;
        compare_loop summary_files rest comparisons
      else
        let comparison_text := strip (stdout result) in
        compare_loop summary_files rest
          (comparisons ++ [comparison_block i comparison_text])
  end.

(** [range(len(summary_files) - 1)] is empty for a list of length 0 too,
    as the truncated subtraction gives *)
Definition compare_summaries (summary_files : list str) (output_file : str)
    : M unit :=
  comparisons ← compare_loop summary_files
                  (seq 0 (length summary_files - 1)) [];
  write_text output_file (concat comparisons) ;;
  print (lit " Differences saved to " ++ output_file).


(** *** The comparator, pair by pair (vocabulary of its properties) *)







(** *** The main runner *)


Definition summary_files : list str :=
  map (fun i => lit "summaries/week" ++ str_of_nat (i + 1) ++ lit "_summary.txt")
    (seq 0 4).


(** *** Vocabulary of the further properties *)

(** the lines [format_stats] writes for one column *)
Definition column_block (entry : str * list (str * fval)) : str :=
  lit "**" ++ entry.1 ++ lit "**:" ++ nl
  ++ concat (map (fun m => lit "  - " ++ m.1 ++ lit ": " ++ format_2f m.2 ++ nl)
               entry.2).





(** a text of whitespace only *)
Definition blank (s : str) : bool := forallb is_space s.

(** a text that neither starts nor ends with whitespace *)
Definition trimmed (s : str) : Prop :=
  (forall c, hd_error s = Some c -> is_space c = false)
  /\ (forall c, last s = Some c -> is_space c = false).











(** ** Properties *)

(** *** Text *)

Lemma safe_char_underscore : safe_char underscore = true.
Proof. reflexivity. Qed.

Lemma clean_char_safe (c : N) :
  safe_char (if safe_char c then c else underscore) = true.
Proof. destruct (safe_char c) eqn:E; [exact E | reflexivity]. Qed.

(** C8: [clean_filename] rewrites a name character by character: a word
    character, a dash, an underscore or a dot is kept, any other
    character becomes an underscore; so the result has the length of the
    input and holds only characters of those classes, and
    "latency/read" becomes "latency_read". *)
Theorem clean_filename_safe (text : str) :
  length (clean_filename text) = length text
  /\ (forall i c, text !! i = Some c ->
        clean_filename text !! i
        = Some (if safe_char c then c else underscore))
  /\ Forall (fun c => safe_char c = true) (clean_filename text)
  /\ clean_filename (lit "latency/read") = lit "latency_read".
Proof.
  unfold clean_filename. split; [apply length_map |].
  split.
  { intros i c Hi. rewrite list_lookup_fmap, Hi. reflexivity. }
  split; [| reflexivity].
  induction text as [| c text IH]; simpl; constructor; auto using clean_char_safe.
Qed.

(** C10: cleaning a cleaned name changes nothing. *)
Theorem clean_filename_idempotent (text : str) :
  clean_filename (clean_filename text) = clean_filename text.
Proof.
  unfold clean_filename. rewrite map_map. apply map_ext. intros c.
  rewrite clean_char_safe. reflexivity.
Qed.

Lemma lstrip_spaces (ws s : str) (c : N) :
  forallb is_space ws = true -> is_space c = false ->
  lstrip (ws ++ c :: s) = c :: s.
Proof.
  intros Hws Hc. induction ws as [| w ws IH]; simpl in *.
  - rewrite Hc. reflexivity.
  - apply andb_prop in Hws as [Hw Hws]. rewrite Hw. auto.
Qed.

Lemma rstrip_spaces (ws s : str) (c : N) :
  forallb is_space ws = true -> is_space c = false ->
  rstrip (s ++ c :: ws) = s ++ [c].
Proof.
  intros Hws Hc. unfold rstrip.
  rewrite rev_app_distr. simpl. rewrite <- app_assoc. simpl.
  rewrite lstrip_spaces; [| | exact Hc].
  - simpl. rewrite rev_involutive. reflexivity.
  - rewrite forallb_forall in *. intros x Hx. apply Hws.
    apply in_rev. exact Hx.
Qed.


(** *** The prompt *)




(** *** Frames and dictionaries *)

Lemma items_from_fst (df : DataFrame) (i : nat) (sch : list (str * dtype)) :
  (items_from df i sch).*1 = sch.*1.
Proof.
  revert i. induction sch as [| [c d] sch IH]; intros i; simpl; [reflexivity |].
  f_equal. apply IH.
Qed.

Lemma items_fst (df : DataFrame) : (items df).*1 = columns df.
Proof. apply items_from_fst. Qed.



Lemma dict_set_fresh {V} (d : list (str * V)) (k : str) (v : V) :
  k ∉ d.*1 -> dict_set d k v = d ++ [(k, v)].
Proof.
  intros Hk. unfold dict_set.
  destruct (existsb _ d) eqn:E; [| reflexivity].
  exfalso. apply Hk. apply existsb_exists in E as [kv [Hin Hkv]].
  apply bool_decide_eq_true in Hkv. subst k.
  apply list_elem_of_fmap. exists kv. split; [reflexivity |].
  apply list_elem_of_In. exact Hin.
Qed.




(** the loop of [calculate_statistics], from any dictionary built so far *)
Lemma calculate_statistics_fold (l : list (str * Series))
    (acc : list (str * list (str * fval))) :
  NoDup (acc.*1 ++ l.*1) ->
  fold_left
    (fun stats '(col, s) =>
       if is_numeric_dtype s then dict_set stats col (column_stats s) else stats)
    l acc
  = acc ++ map (fun cs => (cs.1, column_stats cs.2))
             (filter (fun cs => is_numeric_dtype cs.2 = true) l).
Proof.
  revert acc. induction l as [| [col s] l IH]; intros acc Hnd; simpl.
  - rewrite app_nil_r. reflexivity.
  - rewrite fmap_cons in Hnd. simpl in Hnd.
    apply NoDup_app in Hnd as (Hacc & Hdisj & Hl).
    apply NoDup_cons in Hl as [Hcol Hl].
    assert (Hfresh : col ∉ acc.*1).
    { intros Hin. apply (Hdisj col Hin). left. }
    rewrite filter_cons. simpl.
    destruct (is_numeric_dtype s) eqn:E.
    + rewrite decide_True by reflexivity.
      rewrite dict_set_fresh by exact Hfresh.
      rewrite IH.
      * rewrite <- app_assoc. reflexivity.
      * rewrite fmap_app. simpl. rewrite <- app_assoc. simpl.
        apply NoDup_app. split; [exact Hacc |]. split.
        -- intros x Hx Hx'. apply elem_of_cons in Hx' as [-> | Hx'];
             [auto | apply (Hdisj x Hx); right; exact Hx'].
        -- apply NoDup_cons. auto.
    + rewrite decide_False by discriminate.
      apply IH. apply NoDup_app. split; [exact Hacc |]. split; [| exact Hl].
      intros x Hx Hx'. apply (Hdisj x Hx). right. exact Hx'.
Qed.

(** with distinct labels the statistics are the records of the numeric
    columns, in column order *)
Lemma calculate_statistics_eq (df : DataFrame) :
  NoDup (columns df) ->
  calculate_statistics df
  = map (fun cs => (cs.1, column_stats cs.2)) (numeric_items df).
Proof.
  intros Hnd. unfold calculate_statistics, numeric_items.
  rewrite calculate_statistics_fold; [reflexivity |].
  simpl. rewrite items_fst. exact Hnd.
Qed.



(** *** Reductions over a list of reals *)





(** sorting a sorted list changes nothing *)
Lemma merge_sort_sorted (xs : list R) :
  Sorted Rle xs -> merge_sort Rle xs = xs.
Proof.
  intros Hs.
  assert (Htrans : Transitive Rle) by (intros x y z; apply Rle_trans).
  assert (Htotal : Total Rle).
  { intros x y. destruct (Rle_dec x y); [left; assumption | right; lra]. }
  apply (Sorted_unique_strong Rle).
  - intros x1 x2 _ _ H1 H2. apply Rle_antisym; assumption.
  - apply (Sorted_merge_sort Rle).
  - exact Hs.
  - apply merge_sort_Permutation.
Qed.




(** the record of a series without numbers *)
Lemma column_stats_empty (s : Series) :
  numeric_values s = [] -> column_stats s = nan_stats.
Proof.
  intros E. unfold column_stats, nan_stats, series_mean, series_median,
    series_std, series_min, series_max. rewrite E. reflexivity.
Qed.


(** *** Columns of a well-formed frame *)



Lemma well_formed_NoDup (df : DataFrame) :
  well_formed df = true -> NoDup (columns df).
Proof.
  unfold well_formed. intros H. apply andb_prop in H as [H _].
  apply bool_decide_eq_true in H. exact H.
Qed.


Lemma empty_frame_items (df : DataFrame) :
  rows df = [] ->
  map (fun cs => (cs.1, column_stats cs.2)) (numeric_items df)
  = map (fun cd => (cd.1, nan_stats))
        (filter (fun cd => numeric cd.2 = true) (schema df)).
Proof.
  intros Hrows. unfold numeric_items, items.
  generalize 0%nat. induction (schema df) as [| [c d] sch IH]; intros i.
  - reflexivity.
  - simpl. rewrite !filter_cons. simpl. unfold is_numeric_dtype at 1. simpl.
    destruct (decide (numeric d = true)) as [Hd | Hd].
    + simpl. rewrite IH. f_equal. f_equal. apply column_stats_empty.
      unfold numeric_values, column_values. simpl. rewrite Hrows. reflexivity.
    + apply IH.
Qed.

(** *** The statistics *)


(** C5, as the code has it: [calculate_statistics] is a total function,
    and on a frame without rows it yields, for every column of numeric
    dtype, a record whose five statistics are NaN; the mapping is empty
    exactly when no column has a numeric dtype. *)
Theorem statistics_of_empty_frame (df : DataFrame) :
  well_formed df = true -> rows df = [] ->
  calculate_statistics df
  = map (fun cd => (cd.1, nan_stats))
        (filter (fun cd => numeric cd.2 = true) (schema df))
  /\ (calculate_statistics df = []
      <-> Forall (fun cd => numeric cd.2 = false) (schema df)).
Proof.
  intros Hwf Hrows.
  assert (E : calculate_statistics df
              = map (fun cd => (cd.1, nan_stats))
                  (filter (fun cd => numeric cd.2 = true) (schema df))).
  { rewrite calculate_statistics_eq by (apply well_formed_NoDup; exact Hwf).
    apply empty_frame_items. exact Hrows. }
  split; [exact E |]. rewrite E. clear E.
  induction (schema df) as [| [c d] sch IH].
  - split; [constructor | reflexivity].
  - rewrite filter_cons. simpl. destruct (decide (numeric d = true)) as [Hd | Hd].
    + split; [discriminate |]. intros H. inversion H; subst. simpl in *. congruence.
    + rewrite IH. split.
      * intros H. constructor; [| exact H]. simpl. destruct (numeric d); congruence.
      * intros H. inversion H; subst. assumption.
Qed.

(** *** Effects *)

Lemma bind_Ok {A B} (m : M A) (f : A -> M B) (st st' : State) (a : A) :
  m st = Ok a st' -> (m ≫= f) st = f a st'.
Proof. intros H. unfold mbind, M_bind. rewrite H. reflexivity. Qed.

Lemma bind_Raise {A B} (m : M A) (f : A -> M B) (st st' : State) (e : exn) :
  m st = Raise e st' -> (m ≫= f) st = Raise e st'.
Proof. intros H. unfold mbind, M_bind. rewrite H. reflexivity. Qed.





(** *** Loading *)

Lemma filter_all {A} (P : A -> Prop) `{!forall x, Decision (P x)} (l : list A) :
  Forall P l -> filter P l = l.
Proof.
  induction 1 as [| x l Hx _ IH]; [reflexivity |].
  rewrite filter_cons_True by exact Hx. f_equal. exact IH.
Qed.

Lemma read_csv_outcome (path : str) (st : State) :
  read_csv path st
  = match files st !! path with
    | None => Raise (FileNotFoundError path) st
    | Some content =>
        match parse_csv content with
        | None => Raise (ParserError path) st
        | Some df => Ok df st
        end
    end.
Proof.
  unfold read_csv, read_text, mbind, M_bind.
  destruct (files st !! path) as [content |]; [| reflexivity].
  destruct (parse_csv content); reflexivity.
Qed.

Lemma load_dataset_reads_only (csv_file : str) (st : State) :
  (exists df, load_dataset csv_file st = Ok df st)
  \/ (exists e, load_dataset csv_file st = Raise e st).
Proof.
  unfold load_dataset, mbind, M_bind. rewrite read_csv_outcome.
  destruct (files st !! csv_file) as [content |]; [| right; eauto].
  destruct (parse_csv content); [left | right]; eauto.
Qed.

(** C3: loading parses the file, drops the rows with a missing value and
    keeps the first 100 of the remaining rows; it changes nothing in the
    state, so loading again, any number of times, gives the same outcome
    as loading once; the retained rows have no missing value, are at most
    100, and cleaning them again changes nothing. *)
Theorem load_dataset_outcome (csv_file : str) (st : State) (n : nat) (df0 : DataFrame) :
  load_dataset csv_file st
  = match files st !! csv_file with
    | None => Raise (FileNotFoundError csv_file) st
    | Some content =>
        match parse_csv content with
        | None => Raise (ParserError csv_file) st
        | Some df =>
            Ok {| schema := schema df;
                  rows := take 100 (filter (fun r => forallb notna r = true)
                                      (rows df)) |} st
        end
    end
  /\ Nat.iter n (fun again => load_dataset csv_file ;; again)
       (load_dataset csv_file) st
     = load_dataset csv_file st
  /\ no_missing (head 100 (dropna df0)) = true
  /\ (length (rows (head 100 (dropna df0))) <= 100)%nat
  /\ head 100 (dropna (head 100 (dropna df0))) = head 100 (dropna df0).
Proof.
  split; [| split; [| split; [| split]]].
  - unfold load_dataset, mbind, M_bind. rewrite read_csv_outcome.
    destruct (files st !! csv_file) as [content |]; [| reflexivity].
    destruct (parse_csv content); reflexivity.
  - induction n as [| n IH]; [reflexivity |].
    rewrite Nat.iter_succ.
    destruct (load_dataset_reads_only csv_file st) as [[df H] | [e H]].
    + erewrite bind_Ok; [| exact H]. exact IH.
    + erewrite bind_Raise; [| exact H]. symmetry. exact H.
  - unfold no_missing, head, dropna. simpl. apply forallb_forall.
    intros r Hr. apply list_elem_of_In in Hr.
    apply elem_of_take in Hr as (i & Hr & _).
    apply list_elem_of_lookup_2 in Hr.
    apply list_elem_of_filter in Hr as [Hr _]. exact Hr.
  - unfold head. simpl. rewrite length_take. lia.
  - unfold head, dropna. simpl. f_equal.
    set (l := filter _ (rows df0)).
    assert (E : filter (fun r => forallb notna r = true) (take 100 l) = take 100 l).
    { apply filter_all. apply Forall_forall. intros r Hr.
      apply elem_of_take in Hr as (i & Hr & _).
      apply list_elem_of_lookup_2 in Hr. subst l.
      apply list_elem_of_filter in Hr as [Hr _]. exact Hr. }
    rewrite E. rewrite take_take. f_equal.
Qed.

(** *** The report generator *)


(** *** The comparator *)







(** ** Further properties *)

(** *** The statistics text *)

Lemma format_metrics_fold (metrics : list (str * fval)) (text : str) :
  fold_left
    (fun text '(stat, value) =>
       text ++ lit "  - " ++ stat ++ lit ": " ++ format_2f value ++ nl)
    metrics text
  = text ++ concat (map (fun m => lit "  - " ++ m.1 ++ lit ": " ++ format_2f m.2 ++ nl)
                      metrics).
Proof.
  revert text. induction metrics as [| [stat value] metrics IH]; intros text.
  - simpl. rewrite app_nil_r. reflexivity.
  - cbn [fold_left map concat fst snd]. rewrite IH, <- !app_assoc. reflexivity.
Qed.

Lemma format_stats_fold (stats : list (str * list (str * fval))) (text : str) :
  fold_left
    (fun text '(col, metrics) =>
       fold_left
         (fun text '(stat, value) =>
            text ++ lit "  - " ++ stat ++ lit ": " ++ format_2f value ++ nl)
         metrics
         (text ++ lit "**" ++ col ++ lit "**:" ++ nl))
    stats text
  = text ++ concat (map column_block stats).
Proof.
  revert text. induction stats as [| [col metrics] stats IH]; intros text.
  - simpl. rewrite app_nil_r. reflexivity.
  - cbn [fold_left map concat]. rewrite IH, format_metrics_fold.
    unfold column_block. cbn [fst snd]. rewrite <- !app_assoc. reflexivity.
Qed.

Lemma format_stats_concat (stats : list (str * list (str * fval))) :
  format_stats stats = concat (map column_block stats).
Proof. unfold format_stats. rewrite format_stats_fold. reflexivity. Qed.

(** X1: the statistics text of a frame is, for each column of numeric
    dtype in column order, a title line followed by the five lines mean,
    median, std, min, max; the other columns leave no trace in it. *)
Theorem format_stats_of_statistics (df : DataFrame) :
  well_formed df = true ->
  format_stats (calculate_statistics df)
  = concat (map (fun cs =>
                   lit "**" ++ cs.1 ++ lit "**:" ++ nl
                   ++ lit "  - mean: " ++ format_2f (series_mean cs.2) ++ nl
                   ++ lit "  - median: " ++ format_2f (series_median cs.2) ++ nl
                   ++ lit "  - std: " ++ format_2f (series_std cs.2) ++ nl
                   ++ lit "  - min: " ++ format_2f (series_min cs.2) ++ nl
                   ++ lit "  - max: " ++ format_2f (series_max cs.2) ++ nl)
              (numeric_items df)).
Proof.
  intros Hwf. rewrite format_stats_concat.
  rewrite calculate_statistics_eq by (apply well_formed_NoDup; exact Hwf).
  rewrite map_map. f_equal. apply map_ext. intros [col s].
  unfold column_block, column_stats. cbn [fst snd map concat].
  rewrite app_nil_r, <- !app_assoc. reflexivity.
Qed.

(** *** Cleaning a frame *)

Lemma forallb_sublist {A} (f : A -> bool) (l1 l2 : list A) :
  l1 `sublist_of` l2 -> forallb f l2 = true -> forallb f l1 = true.
Proof.
  intros Hsub H. rewrite forallb_forall in *. intros x Hx. apply H.
  apply list_elem_of_In. eapply elem_of_sublist; [| exact Hsub].
  apply list_elem_of_In. exact Hx.
Qed.

(** X2: cleaning keeps the schema and the well-formedness of a frame and
    leaves no missing value; the retained rows are rows of the file in
    their order, and their number is the smaller of 100 and the number of
    rows without a missing value. *)
Theorem cleaning_keeps_frame (df0 : DataFrame) :
  well_formed df0 = true ->
  let df := head 100 (dropna df0) in
  well_formed df = true
  /\ no_missing df = true
  /\ schema df = schema df0
  /\ rows df `sublist_of` rows df0
  /\ length (rows df)
     = Nat.min 100 (length (filter (fun r => forallb notna r = true) (rows df0))).
Proof.
  intros Hwf df.
  assert (Hsub : rows df `sublist_of` rows df0).
  { subst df. unfold head, dropna. cbn [rows].
    etransitivity; [apply sublist_take | apply sublist_filter]. }
  split; [| split; [| split; [reflexivity | split; [exact Hsub |]]]].
  - unfold well_formed in *. apply andb_prop in Hwf as [Hnd Hrows].
    apply andb_true_intro. split; [exact Hnd |].
    apply (forallb_sublist _ _ _ Hsub). exact Hrows.
  - unfold no_missing. subst df. unfold head, dropna. cbn [rows].
    apply forallb_forall. intros r Hr. apply list_elem_of_In in Hr.
    apply elem_of_take in Hr as (i & Hr & _).
    apply list_elem_of_lookup_2 in Hr.
    apply list_elem_of_filter in Hr as [Hr _]. exact Hr.
  - subst df. unfold head, dropna. cbn [rows]. apply length_take.
Qed.

(** *** File names *)

(** X3: every ASCII character of a cleaned name is a letter, a digit, an
    underscore, a dash or a dot, whatever the Unicode table says; so a
    cleaned name holds no slash, and a name is its own cleaning exactly
    when all its characters are kept ones. *)
Theorem clean_filename_ascii (text : str) :
  (forall c, c ∈ clean_filename text -> (c < 128)%N ->
     (48 <= c <= 57 \/ 65 <= c <= 90 \/ 97 <= c <= 122
      \/ c = 95 \/ c = 45 \/ c = 46)%N)
  /\ (slash ∉ clean_filename text)
  /\ (clean_filename text = text <-> Forall (fun c => safe_char c = true) text).
Proof.
  assert (Hsafe : forall c, c ∈ clean_filename text -> safe_char c = true).
  { intros c Hc. unfold clean_filename in Hc.
    apply list_elem_of_fmap in Hc as (c0 & -> & _). apply clean_char_safe. }
  assert (Hascii : forall c, safe_char c = true -> (c < 128)%N ->
            (48 <= c <= 57 \/ 65 <= c <= 90 \/ 97 <= c <= 122
             \/ c = 95 \/ c = 45 \/ c = 46)%N).
  { intros c Hc Hlt. unfold safe_char, is_word, underscore, dash, dot in Hc.
    repeat rewrite orb_true_iff in Hc. repeat rewrite andb_true_iff in Hc.
    repeat rewrite N.leb_le in Hc. repeat rewrite N.eqb_eq in Hc. lia. }
  split; [| split].
  - intros c Hc Hlt. apply Hascii; auto.
  - intros Hin. specialize (Hascii slash (Hsafe _ Hin)). unfold slash in Hascii. lia.
  - unfold clean_filename. split.
    + intros Heq. apply Forall_forall. intros c Hc.
      apply list_elem_of_lookup in Hc as [i Hi].
      assert (Hi' : map (fun c => if safe_char c then c else underscore) text !! i
                    = Some c) by (rewrite Heq; exact Hi).
      rewrite list_lookup_fmap, Hi in Hi'. simpl in Hi'.
      destruct (safe_char c) eqn:E; [reflexivity |].
      inversion Hi'; subst c. rewrite safe_char_underscore in E. discriminate.
    + intros Hall. clear Hsafe. induction Hall as [| c l Hc _ IH]; [reflexivity |].
      simpl. rewrite Hc. f_equal. exact IH.
Qed.

(** *** The report generator, further *)



(** *** Plot files *)

Lemma existsb_slash (p : str) :
  existsb (N.eqb slash) p = false -> slash ∉ p.
Proof.
  intros H Hin. apply list_elem_of_In in Hin.
  assert (E : existsb (N.eqb slash) p = true).
  { apply existsb_exists. exists slash. split; [exact Hin | apply N.eqb_refl]. }
  congruence.
Qed.

Lemma basename_no_slash (p : str) : slash ∉ basename p.
Proof.
  induction p as [| c p IH]; [apply not_elem_of_nil |].
  simpl. destruct (c =? slash)%N eqn:Ec; simpl; [exact IH |].
  destruct (existsb (N.eqb slash) p) eqn:Ep; [exact IH |].
  apply not_elem_of_cons. split.
  - intros Heq. subst c. rewrite N.eqb_refl in Ec. discriminate.
  - apply existsb_slash. exact Ep.
Qed.

Lemma splitext_root_aux_prefix (seen : bool) (p : str) :
  splitext_root_aux seen p `prefix_of` p.
Proof.
  revert seen. induction p as [| c p IH]; intros seen; simpl.
  - reflexivity.
  - destruct ((c =? dot)%N && seen && negb (existsb (N.eqb dot) p)).
    + apply prefix_nil.
    + apply prefix_cons, IH.
Qed.

Lemma base_name_no_slash (csv_name : str) :
  slash ∉ splitext_root (basename csv_name).
Proof.
  intros Hin. apply (basename_no_slash csv_name).
  destruct (splitext_root_aux_prefix false (basename csv_name)) as [k Hk].
  unfold splitext_root in Hin. rewrite Hk. apply elem_of_app. left. exact Hin.
Qed.

Lemma clean_filename_no_slash (col : str) : slash ∉ clean_filename col.
Proof.
  intros Hin. unfold clean_filename in Hin.
  apply list_elem_of_fmap in Hin as (c & Hc & _).
  pose proof (clean_char_safe c) as Hs. rewrite <- Hc in Hs.
  unfold safe_char, is_word, slash, dash, underscore, dot in Hs. simpl in Hs.
  discriminate.
Qed.

Lemma path_join_relative (a b : str) (c : N) :
  slash ∉ (c :: b) ->
  path_join a (c :: b)
  = a ++ (match last a with
          | Some d => if (d =? slash)%N then [] else [slash]
          | None => []
          end) ++ c :: b.
Proof.
  intros Hc. apply not_elem_of_cons in Hc as [Hne _].
  unfold path_join. destruct (c =? slash)%N eqn:E.
  - apply N.eqb_eq in E. congruence.
  - destruct (last a) as [d |] eqn:El.
    + destruct (d =? slash)%N; reflexivity.
    + apply last_None in El. subst a. reflexivity.
Qed.

Lemma plot_folder_shape (csv_name : str) :
  plot_folder csv_name = lit "plots/" ++ splitext_root (basename csv_name).
Proof.
  unfold plot_folder. pose proof (base_name_no_slash csv_name) as Hns.
  destruct (splitext_root (basename csv_name)) as [| c b]; [reflexivity |].
  rewrite path_join_relative by exact Hns. reflexivity.
Qed.

Lemma plot_name_no_slash (col : str) : slash ∉ clean_filename col ++ lit ".png".
Proof.
  intros Hin. apply elem_of_app in Hin as [Hin | Hin].
  - exact (clean_filename_no_slash col Hin).
  - vm_compute in Hin. repeat (apply elem_of_cons in Hin as [Hin | Hin];
      [discriminate |]). inversion Hin.
Qed.


(** X5: the plot of a column is the file [plots/<base>/<name>.png], where
    [<base>] is the CSV file name without directories and extension and
    [<name>] is the cleaned column label; neither holds a slash, so the
    file lies directly in the folder of its dataset, whatever the label. *)
Theorem plot_filename_shape (csv_name col : str) :
  let base := splitext_root (basename csv_name) in
  plot_filename csv_name col
  = lit "plots/" ++ base ++ (if bool_decide (base = []) then [] else [slash])
      ++ clean_filename col ++ lit ".png"
  /\ (slash ∉ base)
  /\ (slash ∉ clean_filename col ++ lit ".png").
Proof.
  intros base.
  pose proof (plot_name_no_slash col) as Hname.
  split; [| split; [apply base_name_no_slash | exact Hname]].
  unfold plot_filename. rewrite plot_folder_shape. fold base.
  destruct (clean_filename col ++ lit ".png") as [| c b] eqn:E.
  { destruct (clean_filename col); discriminate. }
  rewrite path_join_relative by exact Hname. rewrite <- app_assoc. f_equal.
  f_equal. pose proof (base_name_no_slash csv_name) as Hbase. fold base in Hbase.
  clearbody base. destruct base as [| d base' _] using rev_ind.
  - reflexivity.
  - rewrite app_assoc, last_snoc.
    assert (Hd : d <> slash).
    { intros Heq. subst d. apply Hbase. apply elem_of_app. right. left. }
    apply N.eqb_neq in Hd. rewrite Hd.
    rewrite bool_decide_eq_false_2; [reflexivity |].
    intros Hnil. destruct base'; discriminate.
Qed.





(** *** Trimming *)

Lemma lstrip_split (s : str) :
  exists ws, s = ws ++ lstrip s /\ blank ws = true
             /\ (forall c, hd_error (lstrip s) = Some c -> is_space c = false).
Proof.
  induction s as [| c s (ws & Hs & Hws & Hhd)].
  - exists []. repeat split. intros c Hc. discriminate.
  - simpl. destruct (is_space c) eqn:E.
    + exists (c :: ws). split; [simpl; congruence |]. split; [| exact Hhd].
      unfold blank in *. simpl. rewrite E. exact Hws.
    + exists []. repeat split. intros c' Hc'. simpl in Hc'. congruence.
Qed.

Lemma blank_rev (s : str) : blank s = true -> blank (rev s) = true.
Proof.
  unfold blank. rewrite !forallb_forall. intros H c Hc. apply H.
  apply in_rev. exact Hc.
Qed.

Lemma last_rev_hd (s : str) : last s = hd_error (rev s).
Proof.
  induction s as [| c s IH] using rev_ind; [reflexivity |].
  rewrite last_snoc, rev_app_distr. reflexivity.
Qed.

Lemma rstrip_split (s : str) :
  exists ws, s = rstrip s ++ ws /\ blank ws = true
             /\ (forall c, last (rstrip s) = Some c -> is_space c = false).
Proof.
  unfold rstrip. destruct (lstrip_split (rev s)) as (ws & Hs & Hws & Hhd).
  exists (rev ws). split; [| split].
  - rewrite <- rev_app_distr, <- Hs, rev_involutive. reflexivity.
  - apply blank_rev. exact Hws.
  - intros c Hc. rewrite last_rev_hd, rev_involutive in Hc. auto.
Qed.

(** what [strip] removes and what it leaves *)
Lemma strip_split (s : str) :
  exists l r, s = l ++ strip s ++ r /\ blank l = true /\ blank r = true
              /\ trimmed (strip s).
Proof.
  destruct (lstrip_split s) as (l & Hs & Hl & Hhd).
  destruct (rstrip_split (lstrip s)) as (r & Ht & Hr & Hlast).
  exists l, r. unfold strip.
  split; [rewrite <- Ht; exact Hs |]. split; [exact Hl |]. split; [exact Hr |].
  split; [| exact Hlast].
  intros c Hc. apply Hhd. rewrite Ht.
  destruct (rstrip (lstrip s)); [discriminate | exact Hc].
Qed.


(** *** The comparator and a missing summary *)

(** the loop from position [k] when the first missing summary file is at
    position [k + d] *)
Lemma compare_loop_missing (summary_files : list str)
    (fs : gmap (list N) (list N)) (j : nat) (p : str) :
  summary_files !! j = Some p -> fs !! p = None ->
  (forall i q, (i < j)%nat -> summary_files !! i = Some q -> is_Some (fs !! q)) ->
  forall (d k m : nat) (acc : list str) (st : State),
    files st = fs -> j = (k + d)%nat -> (d <= m)%nat -> (1 <= m)%nat ->
    (k + m < length summary_files)%nat ->
    exists st',
      compare_loop summary_files (seq k m) acc st = Raise (FileNotFoundError p) st'
      /\ files st' = fs
      /\ length (calls st') = (length (calls st) + (d - 1))%nat.
Proof.
  intros Hj Hp Hbefore. induction d as [| d IH]; intros k m acc st Hfs Hjk Hdm Hm Hlen.
  - destruct m as [| m]; [lia |]. cbn [seq compare_loop].
    replace (k + 0)%nat with k in Hjk by lia. subst j.
    erewrite bind_Ok; [| unfold index; rewrite Hj; reflexivity].
    erewrite bind_Raise; [| unfold read_text; rewrite Hfs, Hp; reflexivity].
    eexists. split; [reflexivity |]. split; [exact Hfs | lia].
  - destruct m as [| m]; [lia |]. cbn [seq compare_loop].
    assert (Hk : (k < length summary_files)%nat) by lia.
    destruct (lookup_lt_is_Some_2 _ _ Hk) as [path1 Hp1].
    destruct (Hbefore k path1 ltac:(lia) Hp1) as [text1 Ht1].
    erewrite bind_Ok; [| unfold index; rewrite Hp1; reflexivity].
    erewrite bind_Ok; [| unfold read_text; rewrite Hfs, Ht1; reflexivity].
    destruct d as [| d].
    + replace (k + 1)%nat with j by lia.
      erewrite bind_Ok; [| unfold index; rewrite Hj; reflexivity].
      erewrite bind_Raise; [| unfold read_text; rewrite Hfs, Hp; reflexivity].
      eexists. split; [reflexivity |]. split; [exact Hfs | lia].
    + assert (Hk1 : (k + 1 < length summary_files)%nat) by lia.
      destruct (lookup_lt_is_Some_2 _ _ Hk1) as [path2 Hp2].
      destruct (Hbefore (k + 1)%nat path2 ltac:(lia) Hp2) as [text2 Ht2].
      erewrite bind_Ok; [| unfold index; rewrite Hp2; reflexivity].
      erewrite bind_Ok; [| unfold read_text; rewrite Hfs, Ht2; reflexivity].
      set (prompt := comparison_prompt k (strip text1) (strip text2)).
      unfold subprocess_run at 1. unfold mbind at 1, M_bind at 1.
      destruct (ollama (world st) prompt) as [r w1] eqn:Hrun.
      destruct (bool_decide (returncode r ≠ 0%Z)) eqn:Hrc.
      * erewrite bind_Ok; [| reflexivity]. erewrite bind_Ok; [| reflexivity].
        edestruct (IH (S k) m acc) as (st' & Hrun' & Hfs' & Hcalls);
          [| | | | | eexists; split; [exact Hrun' |]; split; [exact Hfs' |]];
          try lia; [exact Hfs |].
        rewrite Hcalls. cbn [calls]. rewrite length_app. simpl. lia.
      * edestruct (IH (S k) m (acc ++ [comparison_block k (strip (stdout r))]))
          as (st' & Hrun' & Hfs' & Hcalls);
          [| | | | | eexists; split; [exact Hrun' |]; split; [exact Hfs' |]];
          try lia; [exact Hfs |].
        rewrite Hcalls. cbn [calls]. rewrite length_app. simpl. lia.
Qed.

(** X9: when a summary file is missing, the comparator raises
    [FileNotFoundError] for the first missing one and writes nothing: the
    output file keeps its former state, and the comparisons obtained for
    the earlier pairs (one process call each) are lost. *)
Theorem compare_summaries_missing_file (summary_files : list str)
    (output_file : str) (st : State) (j : nat) (p : str) :
  summary_files !! j = Some p -> files st !! p = None ->
  (forall i q, (i < j)%nat -> summary_files !! i = Some q ->
     is_Some (files st !! q)) ->
  (2 <= length summary_files)%nat ->
  exists st',
    compare_summaries summary_files output_file st
    = Raise (FileNotFoundError p) st'
    /\ files st' = files st
    /\ length (calls st') = (length (calls st) + (j - 1))%nat.
Proof.
  intros Hj Hp Hbefore Hlen.
  pose proof (lookup_lt_Some _ _ _ Hj) as Hjlen.
  destruct (compare_loop_missing summary_files (files st) j p Hj Hp Hbefore
              j 0%nat (length summary_files - 1)%nat [] st)
    as (st' & Hrun & Hfs & Hcalls); try lia; [reflexivity |].
  exists st'. split; [| split; [exact Hfs | exact Hcalls]].
  unfold compare_summaries. erewrite bind_Raise; [reflexivity | exact Hrun].
Qed.

(** *** A run of reports *)









(** *** The main runner *)














(** *** Outcomes of the comparator *)



(** *** Plots and the status of the process *)



(** *** The comparison prompt *)

Lemma strip_prompt (c1 : N) (body s2 : str) :
  is_space c1 = false -> (forall c, last s2 = Some c -> is_space c = false) ->
  strip (nl ++ c1 :: body ++ 45%N :: nl ++ s2 ++ nl)
  = c1 :: body ++ [45%N] ++ (if bool_decide (s2 = []) then [] else nl ++ s2).
Proof.
  intros H1 Hlast. unfold strip.
  rewrite (lstrip_spaces nl _ c1 eq_refl H1).
  destruct s2 as [| c s2 _] using rev_ind.
  - rewrite bool_decide_eq_true_2 by reflexivity.
    change (c1 :: body ++ 45%N :: nl ++ [] ++ nl)
      with ((c1 :: body) ++ 45%N :: (nl ++ nl)).
    rewrite (rstrip_spaces (nl ++ nl) _ 45%N eq_refl eq_refl). reflexivity.
  - rewrite bool_decide_eq_false_2 by (intros H; destruct s2; discriminate).
    specialize (Hlast c (last_snoc _ _)).
    transitivity (rstrip ((c1 :: body ++ 45%N :: nl ++ s2) ++ c :: nl)).
    { f_equal. cbn [app]. rewrite <- !app_assoc. reflexivity. }
    rewrite (rstrip_spaces nl _ c eq_refl Hlast).
    cbn [app]. rewrite <- !app_assoc. reflexivity.
Qed.

(** X15: the prompt of a pair is the fixed instructions with the two week
    numbers, then the first summary under its title and the second under
    its own, both stripped; when the second summary is empty the prompt
    ends with its title line. *)
Theorem comparison_prompt_shape (i : nat) (text1 text2 : str) :
  comparison_prompt i (strip text1) (strip text2)
  = lit "You are a system performance analyst. Below are two weekly summaries of system metrics.

Compare Week " ++ str_of_nat (i + 1) ++ lit " and Week " ++ str_of_nat (i + 2) ++ lit ":
- Focus only on actual differences in trends or anomalies.
- Do not repeat similar parts.
- Be precise and analytical.

--- Week " ++ str_of_nat (i + 1) ++ lit " Summary ---
" ++ strip text1 ++ lit "

--- Week " ++ str_of_nat (i + 2) ++ lit " Summary ---"
    ++ (if bool_decide (strip text2 = []) then [] else nl ++ strip text2).
Proof.
  unfold comparison_prompt.
  destruct (strip_split text2) as (l & r & _ & _ & _ & [_ Hlast]).
  set (s1 := strip text1). set (s2 := strip text2) in *.
  set (n1 := str_of_nat (i + 1)). set (n2 := str_of_nat (i + 2)).
  match goal with
  | |- strip (lit ?a ++ n1 ++ lit ?b ++ n2 ++ lit ?c ++ n1 ++ lit ?d ++ s1
              ++ lit ?e ++ n2 ++ lit ?f ++ s2 ++ lit ?g)
       = lit ?a' ++ _ =>
      set (F := lit " Summary --");
      change (lit f) with (F ++ 45%N :: nl);
      change (lit " Summary ---") with (F ++ [45%N]);
      set (A := tl (lit a')); set (B := lit b); set (C := lit c);
      set (E := lit e);
      change (lit a) with (nl ++ 89%N :: A);
      change (lit a') with (89%N :: A);
      change (lit g) with nl
  end.
  clearbody A B C E F s1 s2 n1 n2.
  transitivity (strip (nl ++ 89%N :: (A ++ n1 ++ B ++ n2 ++ C ++ n1
                                        ++ (F ++ 45%N :: nl) ++ s1
                                        ++ E ++ n2 ++ F)
                          ++ 45%N :: nl ++ s2 ++ nl)).
  { f_equal. cbn [app]. rewrite <- !app_assoc. cbn [app]. reflexivity. }
  rewrite strip_prompt by (reflexivity || exact Hlast).
  cbn [app]. rewrite <- !app_assoc. cbn [app]. reflexivity.
Qed.

End Pipeline.

Arguments Build_State {World}.
Arguments files {World}.
Arguments dirs {World}.
Arguments console {World}.
Arguments calls {World}.
Arguments world {World}.
Arguments Ok {World A}.
Arguments Raise {World A}.

(** ** The properties on the sample inputs *)

Example basename_week1 : basename (lit "data/in/week1.csv") = lit "week1.csv".
Proof. reflexivity. Qed.
Example splitext_week1 : splitext_root (lit "week1.csv") = lit "week1".
Proof. reflexivity. Qed.
Example splitext_hidden : splitext_root (lit ".bashrc") = lit ".bashrc".
Proof. reflexivity. Qed.
Example join_plots : path_join (lit "plots") (lit "week1") = lit "plots/week1".
Proof. reflexivity. Qed.
Example str_of_nat_12 : str_of_nat 12 = lit "12".
Proof. reflexivity. Qed.
Example strip_ex : strip (lit "  a b
 ") = lit "a b".
Proof. reflexivity. Qed.


(** the five-row sample: statistics for [queueLength] only, with mean 3,
    median 3, minimum 1 and maximum 5 *)
Example mixed_statistics :
  let s := {| s_dtype := int64; s_values := column_values Sample.mixed 0 |} in
  calculate_statistics Sample.mixed = [(lit "queueLength", column_stats s)]
  /\ series_mean s = Some 3%R /\ series_median s = Some 3%R
  /\ series_min s = Some 1%R /\ series_max s = Some 5%R.
Proof.
  intros s.
  assert (E : numeric_values s = [1; 2; 3; 4; 5]%R) by reflexivity.
  split; [reflexivity |].
  unfold series_mean, series_median, series_min, series_max. rewrite E.
  split; [| split; [| split]].
  - f_equal. unfold Rsum. simpl. lra.
  - rewrite merge_sort_sorted; [reflexivity |].
    repeat (constructor; try lra).
  - f_equal. simpl. unfold Rmin. repeat (destruct (Rle_dec _ _); try lra).
  - f_equal. simpl. unfold Rmax. repeat (destruct (Rle_dec _ _); try lra).
Qed.



(** C5 fails as stated: every row of the sample has a missing value, so no
    row is retained, and the statistics have an entry for each of the two
    numeric columns. *)
Lemma empty_frame_statistics_not_empty :
  rows (head 100 (dropna Sample.all_missing)) = []
  /\ calculate_statistics (head 100 (dropna Sample.all_missing))
     = [(lit "queueLength", nan_stats); (lit "latencyRead", nan_stats)]
  /\ calculate_statistics (head 100 (dropna Sample.all_missing)) <> [].
Proof.
  split; [reflexivity |]. split; [vm_compute; reflexivity | vm_compute; discriminate].
Qed.

Lemma statistics_of_empty_frame_witness :
  well_formed (head 100 (dropna Sample.all_missing)) = true
  /\ rows (head 100 (dropna Sample.all_missing)) = []
  /\ calculate_statistics (head 100 (dropna Sample.all_missing))
     = [(lit "queueLength", nan_stats); (lit "latencyRead", nan_stats)].
Proof.
  split; [reflexivity |]. split; [reflexivity |].
  destruct (statistics_of_empty_frame (head 100 (dropna Sample.all_missing)))
    as [Heq _]; [reflexivity | reflexivity |].
  rewrite Heq. reflexivity.
Defined.





(** the same scenario, run: the content of the output file *)
Example comparator_scenario :
  match compare_summaries nat Sample.ollama Sample.week_files
          (lit "comparisons/summary_differences.txt")
          {| files := Sample.disk; dirs := ∅; console := []; calls := [];
             world := 0%nat |} with
  | Ok _ st' =>
      files st' !! lit "comparisons/summary_differences.txt"
      = Some (nl ++ [128269%N] ++ lit " Week 1 vs Week 2:
different
--------------------------------------------------------------------------------
" ++ nl ++ [128269%N] ++ lit " Week 3 vs Week 4:
different
--------------------------------------------------------------------------------
")
  | Raise _ _ => False
  end.
Proof. vm_compute. reflexivity. Qed.

(** ** The further properties on the sample inputs *)

Lemma format_stats_of_statistics_witness :
  well_formed Sample.mixed = true
  /\ format_stats Sample.format_2f (calculate_statistics Sample.mixed)
     = lit "**queueLength**:
  - mean: 0.00
  - median: 0.00
  - std: 0.00
  - min: 0.00
  - max: 0.00
".
Proof.
  split; [reflexivity |].
  rewrite (format_stats_of_statistics Sample.format_2f Sample.mixed) by reflexivity.
  reflexivity.
Defined.

Lemma cleaning_keeps_frame_witness :
  well_formed Sample.all_missing = true
  /\ well_formed (head 100 (dropna Sample.all_missing)) = true
  /\ schema (head 100 (dropna Sample.all_missing)) = schema Sample.all_missing
  /\ length (rows (head 100 (dropna Sample.all_missing))) = 0%nat.
Proof.
  split; [reflexivity |].
  destruct (cleaning_keeps_frame Sample.all_missing) as (Hwf & _ & Hschema & _ & Hlen);
    [reflexivity |].
  split; [exact Hwf |]. split; [exact Hschema |]. rewrite Hlen. reflexivity.
Defined.



Lemma compare_summaries_missing_file_witness :
  exists st',
    compare_summaries nat Sample.ollama Sample.week_files
      (lit "comparisons/summary_differences.txt")
      {| files := delete (lit "summaries/week3_summary.txt") Sample.disk;
         dirs := ∅; console := []; calls := []; world := 0%nat |}
    = Raise (FileNotFoundError (lit "summaries/week3_summary.txt")) st'
    /\ files st' !! lit "comparisons/summary_differences.txt" = None
    /\ length (calls st') = 1%nat.
Proof.
  destruct (compare_summaries_missing_file nat Sample.ollama Sample.week_files
              (lit "comparisons/summary_differences.txt")
              {| files := delete (lit "summaries/week3_summary.txt") Sample.disk;
                 dirs := ∅; console := []; calls := []; world := 0%nat |}
              2%nat (lit "summaries/week3_summary.txt"))
    as (st' & Hrun & Hfiles & Hcalls).
  - reflexivity.
  - vm_compute. reflexivity.
  - intros i q Hi Hq. destruct i as [| [| i]]; [| | lia];
      simpl in Hq; inversion Hq; subst q; vm_compute; eexists; reflexivity.
  - simpl. lia.
  - exists st'. split; [exact Hrun |]. split; [| exact Hcalls].
    rewrite Hfiles. vm_compute. reflexivity.
Defined.






